(** * DelaunayVoronoiCreator.py: the animation callback and its driver

    The script keeps a growing list of 2-D points; on every animation frame
    it appends one point, clears the axes, redraws the markers and asks
    [scipy.spatial] for the Delaunay triangulation and the Voronoi diagram
    of the whole list.

    Coordinates are IEEE binary64 numbers, as NumPy stores them.  The
    external libraries (NumPy's generator, SciPy's [Delaunay], [Voronoi]
    and [voronoi_plot_2d]) are the parameters of a Section: the script
    never looks inside them, it only forwards the point list and reacts to
    a result or to an exception.  Exceptions and mutable state are threaded
    through a small state-and-exception monad in which, as in Python, a
    raise keeps every mutation made before it. *)

From Stdlib Require Import List String Ascii Bool Arith Lia ZArith.
From Stdlib Require Import PrimFloat DecimalString.
Import ListNotations.

Set Warnings "-inexact-float".
Set Implicit Arguments.

(** ** Arrays of points *)

(** A row of an [(n, 2)] float64 array. *)
Definition point : Type := (float * float)%type.

(** [pts[:, 0]] and [pts[:, 1]]. *)
Definition column0 (pts : list point) : list float := map fst pts.
Definition column1 (pts : list point) : list float := map snd pts.

(** A row of [tri.simplices]: three indices into the point array. *)
Definition simplex : Type := (nat * nat * nat)%type.

(** ** Exceptions *)

(** A raised Python exception: its class and [str(e)].  Every exception of
    the model is a subclass of [Exception], so [except Exception] catches
    it. *)
Record exn : Type := Exn { exn_class : string; exn_str : string }.

Definition str_of_nat (n : nat) : string := NilZero.string_of_uint (Nat.to_uint n).

Definition IndexError (index size : nat) : exn :=
  Exn "IndexError"
      ("index " ++ str_of_nat index ++ " is out of bounds for axis 0 with size "
                ++ str_of_nat size).

(** ** The axes *)

Inductive artist : Type :=
| Line2D (xdata ydata : list float) (fmt : string)
| LineCollection (segments : list (point * point)) (colors linestyle : string).

Record Axes : Type := mkAxes {
  xlim : float * float;
  ylim : float * float;
  aspect : string;
  title : string;
  artists : list artist
}.

(** What [plt.subplots()] hands out. *)
Definition fresh_axes : Axes :=
  mkAxes (0%float, 1%float) (0%float, 1%float) "auto" "" [].

(** [ax.clear()]: artists, title and limits go; the aspect stays. *)
Definition Axes_clear (a : Axes) : Axes :=
  mkAxes (0%float, 1%float) (0%float, 1%float) (aspect a) "" [].

Definition Axes_set_title (a : Axes) (s : string) : Axes :=
  mkAxes (xlim a) (ylim a) (aspect a) s (artists a).

Definition Axes_plot (a : Axes) (xs ys : list float) (fmt : string) : Axes :=
  mkAxes (xlim a) (ylim a) (aspect a) (title a) (artists a ++ [Line2D xs ys fmt]).

(** [configure_axes(ax)]: unit square, equal aspect. *)
Definition configure_axes (a : Axes) : Axes :=
  mkAxes (0%float, 1%float) (0%float, 1%float) "equal" (title a) (artists a).

(** ** State and control flow *)

(** The objects the closure [update] mutates: the list [current_points],
    the axes [ax], and the lines printed so far. *)
Record State : Type := mkState {
  current_points : list point;
  ax : Axes;
  stdout : list string
}.

Definition M (A : Type) : Type := State -> (A + exn) * State.

Definition ret {A : Type} (a : A) : M A := fun s => (inl a, s).

Definition bind {A B : Type} (m : M A) (k : A -> M B) : M B :=
  fun s =>
    match m s with
    | (inl a, s') => k a s'
    | (inr e, s') => (inr e, s')
    end.

(** [try: body / except Exception as e: handler(e)].  The handler starts
    from the state the body left behind. *)
Definition try_except {A : Type} (body : M A) (handler : exn -> M A) : M A :=
  fun s =>
    match body s with
    | (inl a, s') => (inl a, s')
    | (inr e, s') => handler e s'
    end.

Declare Scope py_scope.
Delimit Scope py_scope with py.
Notation "x <- m ;; k" := (bind m (fun x => k))
  (at level 61, m at next level, right associativity) : py_scope.
Notation "m ;; k" := (bind m (fun _ => k))
  (at level 61, right associativity) : py_scope.

(** [for x in xs: body(x)]. *)
Fixpoint for_each {A : Type} (xs : list A) (body : A -> M unit) : M unit :=
  match xs with
  | [] => ret tt
  | x :: rest => bind (body x) (fun _ => for_each rest body)
  end.

Definition get_current_points : M (list point) :=
  fun s => (inl (current_points s), s).

(** [current_points.append(p)]. *)
Definition append_point (p : point) : M unit :=
  fun s => (inl tt, mkState (current_points s ++ [p]) (ax s) (stdout s)).

Definition on_axes (f : Axes -> Axes) : M unit :=
  fun s => (inl tt, mkState (current_points s) (f (ax s)) (stdout s)).

Definition print (line : string) : M unit :=
  fun s => (inl tt, mkState (current_points s) (ax s) (stdout s ++ [line])).

(** A library call that returns a value or raises. *)
Definition call {A : Type} (r : A + exn) : M A := fun s => (r, s).

(** A library call that draws on the axes.  It gives the axes as it
    leaves them and, when it raises, the exception: the axes are a mutable
    object, so what was drawn before a raise stays drawn. *)
Definition call_on_axes (f : Axes -> Axes * option exn) : M unit :=
  fun s =>
    let '(a, raised) := f (ax s) in
    match raised with
    | None => (inl tt, mkState (current_points s) a (stdout s))
    | Some e => (inr e, mkState (current_points s) a (stdout s))
    end.

(** [arr[i]] on the first axis. *)
Definition getitem (arr : list point) (i : nat) : point + exn :=
  match nth_error arr i with
  | Some p => inl p
  | None => inr (IndexError i (List.length arr))
  end.

(** [pts[triangle]]: the three rows a simplex names. *)
Definition take (pts : list point) (t : simplex) : list point + exn :=
  let '(i, j, k) := t in
  match getitem pts i with
  | inr e => inr e
  | inl a =>
    match getitem pts j with
    | inr e => inr e
    | inl b =>
      match getitem pts k with
      | inr e => inr e
      | inl c => inl [a; b; c]
      end
    end
  end.

(** [np.vstack([simplex, simplex[0]])]: the outline, closed. *)
Definition close_outline (rows : list point) : list point :=
  match rows with
  | [] => []
  | first :: _ => rows ++ [first]
  end.

Definition newline : string := String (ascii_of_nat 10) EmptyString.

(** The three f-strings of [update]. *)
Definition step_title (frame n : nat) : string :=
  "Step " ++ str_of_nat (frame + 1) ++ ": " ++ str_of_nat n ++ " Points".

Definition failure_title (frame : nat) (e : exn) : string :=
  "Step " ++ str_of_nat (frame + 1)
          ++ ": Delaunay failed due to flat configuration" ++ newline
          ++ "Error: " ++ exn_str e.

Definition voronoi_message (frame : nat) (e : exn) : string :=
  "Voronoi diagram failed at frame " ++ str_of_nat frame ++ ": " ++ exn_str e.

Definition POINT_COUNT : nat := 1000.

(** The three literal rows that open [all_points]. *)
Definition seed_points : list point :=
  [ (0.2, 0.2); (0.8, 0.2); (0.5, 0.8) ]%float.

Section Script.

(** *** NumPy's global generator *)
Variable rng_state : Type.
(** [np.random.seed(s)]: the state the generator is reset to. *)
Variable seed_state : Z -> rng_state.
(** One uniform double in [0, 1). *)
Variable random_sample : rng_state -> float * rng_state.

(** *** SciPy *)
Variable Delaunay : list point -> list simplex + exn.
Variable Vor : Type.
Variable Voronoi : list point -> Vor + exn.
(** [voronoi_plot_2d(vor, ax=ax, show_vertices=False, line_colors='green')]. *)
Variable voronoi_plot_2d : Vor -> Axes -> Axes * option exn.

(** [np.random.seed(s)] overwrites the generator, whatever it held. *)
Definition np_random_seed (s : Z) (_ : rng_state) : unit * rng_state :=
  (tt, seed_state s).

(** [np.random.rand(n, 2)]: [n] rows filled in order, two draws each. *)
Fixpoint np_random_rand (n : nat) (g : rng_state) : list point * rng_state :=
  match n with
  | 0 => ([], g)
  | S n' =>
    let '(x, g1) := random_sample g in
    let '(y, g2) := random_sample g1 in
    let '(rows, g3) := np_random_rand n' g2 in
    ((x, y) :: rows, g3)
  end.

(** The module's top level: seed with 42, then build [all_points].  [g0]
    is whatever the generator held when the interpreter started. *)
Definition module_load (g0 : rng_state) : list point * rng_state :=
  let '(_, g1) := np_random_seed 42 g0 in
  let '(rows, g2) := np_random_rand POINT_COUNT g1 in
  (seed_points ++ rows, g2).

(** *** The callback *)

Section Callback.

(** The module-level array the callback reads. *)
Variable all_points : list point.

(** The body of [for triangle in tri.simplices]. *)
Definition draw_simplex (pts : list point) (triangle : simplex) : M unit :=
  (rows <- call (take pts triangle) ;;
   let outline := close_outline rows in
   on_axes (fun a => Axes_plot a (column0 outline) (column1 outline) "b-"))%py.

Definition update (frame : nat) : M (list artist) :=
  (p <- call (getitem all_points frame) ;;
   append_point p ;;
   on_axes Axes_clear ;;
   on_axes configure_axes ;;
   cur <- get_current_points ;;
   on_axes (fun a => Axes_set_title a (step_title frame (List.length cur))) ;;
   pts <- get_current_points ;;
   on_axes (fun a => Axes_plot a (column0 pts) (column1 pts) "ro") ;;
   (if 3 <=? List.length pts then
      try_except
        (tri <- call (Delaunay pts) ;;
         for_each tri (draw_simplex pts) ;;
         try_except
           (vor <- call (Voronoi pts) ;;
            call_on_axes (voronoi_plot_2d vor))
           (fun e => print (voronoi_message frame e)))
        (fun e => on_axes (fun a => Axes_set_title a (failure_title frame e)))
    else ret tt) ;;
   ret [])%py.

(** The callback run for a sequence of frame indices, one call each, in
    the order given. *)
Definition deliver (frames : list nat) : M unit :=
  for_each frames (fun frame => bind (update frame) (fun _ => ret tt)).

(** [FuncAnimation(fig, update, frames=n, repeat=False)] shown by
    [plt.show()], with [n = len(all_points)].  No [init_func] is given,
    so the first draw of the figure runs the callback on the first item
    of [range(n)], if there is one; the timer then runs it once for each
    of [range(n)], in order.  [animate k] is the run up to and including
    frame [k - 1]: the calls 0, 0, 1, ..., k - 1. *)
Definition animate (k : nat) : M unit :=
  deliver (firstn 1 (seq 0 (List.length all_points)) ++ seq 0 k).

(** What [main] sets up before the animation starts. *)
Definition main_setup : State :=
  mkState []
          (Axes_set_title (configure_axes fresh_axes)
                          "Incremental Delaunay Triangulation")
          [].

Definition main : (unit + exn) * State :=
  animate (List.length all_points) main_setup.

(** *** One frame, drawn from scratch

    The frame as a function of the frame index and a point list alone:
    markers, then the triangulation of the whole list, then its Voronoi
    diagram, with nothing carried over from an earlier frame. *)

Definition marker_axes (frame : nat) (pts : list point) : Axes :=
  Axes_plot
    (Axes_set_title (configure_axes fresh_axes) (step_title frame (List.length pts)))
    (column0 pts) (column1 pts) "ro".

(** The outlines of the simplices, one after the other, up to the first
    that names a row the array does not have. *)
Fixpoint plot_simplices (pts : list point) (tri : list simplex) (a : Axes)
  : Axes * option exn :=
  match tri with
  | [] => (a, None)
  | t :: rest =>
    match take pts t with
    | inr e => (a, Some e)
    | inl rows =>
      let outline := close_outline rows in
      plot_simplices pts rest (Axes_plot a (column0 outline) (column1 outline) "b-")
    end
  end.

(** The Voronoi layer: the axes after it, and the line printed when it
    fails. *)
Definition voronoi_layer (frame : nat) (pts : list point) (a : Axes)
  : Axes * list string :=
  match Voronoi pts with
  | inr e => (a, [voronoi_message frame e])
  | inl vor =>
    match voronoi_plot_2d vor a with
    | (a', None) => (a', [])
    | (a', Some e) => (a', [voronoi_message frame e])
    end
  end.

Definition batch_frame (frame : nat) (pts : list point) : Axes * list string :=
  let base := marker_axes frame pts in
  if 3 <=? List.length pts then
    match Delaunay pts with
    | inr e => (Axes_set_title base (failure_title frame e), [])
    | inl tri =>
      match plot_simplices pts tri base with
      | (a, Some e) => (Axes_set_title a (failure_title frame e), [])
      | (a, None) => voronoi_layer frame pts a
      end
    end
  else (base, []).

End Callback.

End Script.

(** ** Plane geometry on float64 *)

(** Twice the signed area of the triangle [a b c]: positive when the three
    points turn left, zero when they lie on one line. *)
Definition orient2d (a b c : point) : float :=
  let '(x1, y1) := a in
  let '(x2, y2) := b in
  let '(x3, y3) := c in
  ((x2 - x1) * (y3 - y1) - (y2 - y1) * (x3 - x1))%float.

(** The first three rows lie on one line. *)
Definition collinear_rows (rows : list point) : bool :=
  match rows with
  | a :: b :: c :: _ => PrimFloat.eqb (orient2d a b c) 0
  | _ => true
  end.

(** For a left-turning triangle [a b c], positive exactly when [d] lies
    strictly inside its circumcircle. *)
Definition incircle (a b c d : point) : float :=
  let '(x1, y1) := a in
  let '(x2, y2) := b in
  let '(x3, y3) := c in
  let '(x4, y4) := d in
  (let adx := x1 - x4 in let ady := y1 - y4 in
   let bdx := x2 - x4 in let bdy := y2 - y4 in
   let cdx := x3 - x4 in let cdy := y3 - y4 in
   let alift := adx * adx + ady * ady in
   let blift := bdx * bdx + bdy * bdy in
   let clift := cdx * cdx + cdy * cdy in
   adx * (bdy * clift - cdy * blift)
   - ady * (bdx * clift - cdx * blift)
   + alift * (bdx * cdy - cdx * bdy))%float.

Definition circumcenter (a b c : point) : point :=
  let '(x1, y1) := a in
  let '(x2, y2) := b in
  let '(x3, y3) := c in
  (let d := 2 * (x1 * (y2 - y3) + x2 * (y3 - y1) + x3 * (y1 - y2)) in
   let n1 := x1 * x1 + y1 * y1 in
   let n2 := x2 * x2 + y2 * y2 in
   let n3 := x3 * x3 + y3 * y3 in
   ((n1 * (y2 - y3) + n2 * (y3 - y1) + n3 * (y1 - y2)) / d,
    (n1 * (x3 - x2) + n2 * (x1 - x3) + n3 * (x2 - x1)) / d))%float.

(** ** A stand-in for the libraries, to run the script on examples

    [Delaunay] by definition (every left-turning triple of points whose
    circumcircle holds no point strictly inside), raising where Qhull
    raises: fewer than three points, or all points on one line.  [Voronoi]
    as its dual: the circumcentres, and a segment between the centres of
    two triangles that share an edge (the rays of unbounded cells are not
    drawn).  The generator is a fixed-step congruential one. *)
Module Oracle.

Definition QhullError (msg : string) : exn := Exn "QhullError" msg.

Definition row (pts : list point) (i : nat) : point :=
  nth i pts (0%float, 0%float).

(** All index triples [i < j < k < n]. *)
Definition triples (n : nat) : list simplex :=
  flat_map (fun i =>
    flat_map (fun j =>
      map (fun k => (i, j, k)) (seq (S j) (n - S j)))
      (seq (S i) (n - S i)))
    (seq 0 n).

Definition turns (pts : list point) (t : simplex) : float :=
  let '(i, j, k) := t in orient2d (row pts i) (row pts j) (row pts k).

(** The triple, listed so that it turns left. *)
Definition left_turning (pts : list point) (t : simplex) : simplex :=
  let '(i, j, k) := t in
  if PrimFloat.ltb (turns pts t) 0 then (i, k, j) else t.

Definition empty_circle (pts : list point) (t : simplex) : bool :=
  let '(i, j, k) := t in
  forallb (fun d => negb (PrimFloat.ltb 0
                            (incircle (row pts i) (row pts j) (row pts k) d)))
          pts.

Definition flat (pts : list point) (t : simplex) : bool :=
  PrimFloat.eqb (turns pts t) 0.

Definition Delaunay (pts : list point) : list simplex + exn :=
  let ts := triples (List.length pts) in
  if List.length pts <? 3 then
    inr (QhullError "QH6214 qhull input error: not enough points to construct initial simplex")
  else if forallb (flat pts) ts then
    inr (QhullError "QH6154 Qhull precision error: Initial simplex is flat")
  else
    inl (filter (empty_circle pts)
                (map (left_turning pts) (filter (fun t => negb (flat pts t)) ts))).

Record Vor : Type := mkVor {
  vor_points : list point;
  vertices : list point;
  finite_ridges : list (point * point)
}.

Definition members (t : simplex) : list nat := let '(i, j, k) := t in [i; j; k].

(** Two triangles with exactly two corners in common. *)
Definition share_edge (s t : simplex) : bool :=
  List.length (filter (fun i => existsb (Nat.eqb i) (members t)) (members s)) =? 2.

Definition centre (pts : list point) (t : simplex) : point :=
  let '(i, j, k) := t in circumcenter (row pts i) (row pts j) (row pts k).

Fixpoint ridges (pts : list point) (ts : list simplex) : list (point * point) :=
  match ts with
  | [] => []
  | t :: rest =>
    map (fun u => (centre pts t, centre pts u)) (filter (share_edge t) rest)
      ++ ridges pts rest
  end.

Definition Voronoi (pts : list point) : Vor + exn :=
  match Delaunay pts with
  | inr e => inr e
  | inl ts => inl (mkVor pts (map (centre pts) ts) (ridges pts ts))
  end.

Definition voronoi_plot_2d (vor : Vor) (a : Axes) : Axes * option exn :=
  (mkAxes (xlim a) (ylim a) (aspect a) (title a)
          (artists a
             ++ [ Line2D (column0 (vor_points vor)) (column1 (vor_points vor)) ".";
                  LineCollection (finite_ridges vor) "green" "solid" ]),
   None).

(** A plotting routine that draws the points of the diagram and then
    raises. *)
Definition voronoi_plot_2d_interrupted (vor : Vor) (a : Axes) : Axes * option exn :=
  (mkAxes (xlim a) (ylim a) (aspect a) (title a)
          (artists a
             ++ [ Line2D (column0 (vor_points vor)) (column1 (vor_points vor)) "." ]),
   Some (Exn "ValueError" "interrupted while drawing the ridges")).

(** A Voronoi routine that gives up on every input. *)
Definition Voronoi_failing (_ : list point) : Vor + exn :=
  inr (QhullError "QH6019 qhull input error: can not scale last coordinate").

(** A generator: the state is a counter below 1024, a draw is
    [state / 1024]. *)
Definition rng_state : Type := nat.
Definition seed_state (s : Z) : rng_state := Z.to_nat s mod 1024.

Fixpoint float_of_nat (n : nat) : float :=
  match n with
  | 0 => 0%float
  | S m => (float_of_nat m + 1)%float
  end.

Definition random_sample (g : rng_state) : float * rng_state :=
  ((float_of_nat g / 1024)%float, (g * 5 + 3) mod 1024).

End Oracle.

(** ** Inputs for the examples *)
Module Examples.

(** The seed followed by the centre of the unit square. *)
Definition with_centre : list point := seed_points ++ [(0.5, 0.5)%float].

(** The seed followed by its first point once more. *)
Definition with_repeat : list point := seed_points ++ [(0.2, 0.2)%float].

(** Three points on the x axis, then one above it. *)
Definition flat_start : list point :=
  [ (0, 0); (1, 0); (2, 0); (0, 1) ]%float.

(** The callback called once for each of the indices 0, ..., k - 1 of
    [pts], in order, from what [main] sets up: a way to build states. *)
Definition frames (pts : list point) (k : nat) : (unit + exn) * State :=
  deliver Oracle.Delaunay Oracle.Voronoi Oracle.voronoi_plot_2d pts (seq 0 k)
          main_setup.

(** The same with a Voronoi routine that always raises. *)
Definition frames_without_voronoi (pts : list point) (k : nat)
  : (unit + exn) * State :=
  deliver Oracle.Delaunay Oracle.Voronoi_failing Oracle.voronoi_plot_2d pts
          (seq 0 k) main_setup.

(** The animation over [pts] as the driver runs it, initial draw
    included, stopped after [k] frames. *)
Definition run (pts : list point) (k : nat) : (unit + exn) * State :=
  animate Oracle.Delaunay Oracle.Voronoi Oracle.voronoi_plot_2d pts k main_setup.

Definition is_outline (a : artist) : bool :=
  match a with
  | Line2D _ _ fmt => String.eqb fmt "b-"
  | LineCollection _ _ _ => false
  end.

Definition is_collection (a : artist) : bool :=
  match a with
  | Line2D _ _ _ => false
  | LineCollection _ _ _ => true
  end.

End Examples.

(** ** Notions used to state what a frame shows *)

(** Every index of the simplex names a row of an array of [n] rows. *)
Definition simplex_in_range (n : nat) (t : simplex) : Prop :=
  let '(i, j, k) := t in i < n /\ j < n /\ k < n.

(** The closed outline of a simplex as it is drawn: its three corners and
    the first one again, in blue. *)
Definition outline (pts : list point) (t : simplex) : artist :=
  let '(i, j, k) := t in
  let corner (m : nat) : point := nth m pts (0%float, 0%float) in
  Line2D [fst (corner i); fst (corner j); fst (corner k); fst (corner i)]
         [snd (corner i); snd (corner j); snd (corner k); snd (corner i)]
         "b-".

(** The marker line of a frame: every stored point, in red. *)
Definition markers (pts : list point) : artist :=
  Line2D (column0 pts) (column1 pts) "ro".

(** The rows of [all_points] that a sequence of frame indices names. *)
Definition rows_named (all_points : list point) (frames : list nat) : list point :=
  flat_map (fun frame =>
              match nth_error all_points frame with
              | Some p => [p]
              | None => []
              end)
           frames.

(** A plotting routine that, whether it returns or raises, has only added
    artists behind the ones it found and has left the title alone. *)
Definition adds_artists_only
           (Vor : Type) (plot : Vor -> Axes -> Axes * option exn) : Prop :=
  forall (vor : Vor) (a a' : Axes) (raised : option exn),
    plot vor a = (a', raised) ->
    title a' = title a /\ exists extra : list artist, artists a' = artists a ++ extra.

(** A triangulator gone wrong, to run the callback on a simplex that
    names a row the array does not have (row 7). *)
Module Stale.

Definition Delaunay (_ : list point) : list simplex + exn :=
  inl [(0, 1, 2); (0, 1, 7); (1, 2, 0)].

Definition frames (pts : list point) (k : nat) : (unit + exn) * State :=
  deliver Delaunay Oracle.Voronoi Oracle.voronoi_plot_2d pts (seq 0 k) main_setup.

End Stale.

(** * Properties *)

Unset Implicit Arguments.

(** ** The monad and the loops *)

Lemma State_eta (s : State) :
  mkState (current_points s) (ax s) (stdout s) = s.
Proof. destruct s; reflexivity. Qed.

Lemma for_each_app {A : Type} (xs ys : list A) (body : A -> M unit) (s : State) :
  for_each (xs ++ ys) body s
  = match for_each xs body s with
    | (inl _, s') => for_each ys body s'
    | (inr e, s') => (inr e, s')
    end.
Proof.
  revert s; induction xs as [| x xs IH]; intros s; simpl.
  - reflexivity.
  - unfold bind. destruct (body x s) as [[[] | e] s']; [apply IH | reflexivity].
Qed.

Lemma firstn_snoc {A : Type} (l : list A) (k : nat) (x : A) :
  nth_error l k = Some x -> firstn (S k) l = firstn k l ++ [x].
Proof.
  revert k; induction l as [| y l IH]; intros [| k] H; simpl in *; try discriminate.
  - now injection H as ->.
  - now rewrite (IH k H).
Qed.

Lemma nth_error_in_range {A : Type} (l : list A) (k : nat) :
  k < List.length l -> exists x, nth_error l k = Some x.
Proof.
  intros H. destruct (nth_error l k) as [x |] eqn:E; [now exists x |].
  apply nth_error_None in E. lia.
Qed.

Section Properties.

Variable rng_state : Type.
Variable seed_state : Z -> rng_state.
Variable random_sample : rng_state -> float * rng_state.
Variable Delaunay : list point -> list simplex + exn.
Variable Vor : Type.
Variable Voronoi : list point -> Vor + exn.
Variable voronoi_plot_2d : Vor -> Axes -> Axes * option exn.

Local Abbreviation update_ := (update Delaunay Voronoi voronoi_plot_2d).
Local Abbreviation animate_ := (animate Delaunay Voronoi voronoi_plot_2d).
Local Abbreviation deliver_ := (deliver Delaunay Voronoi voronoi_plot_2d).
Local Abbreviation batch_frame_ := (batch_frame Delaunay Voronoi voronoi_plot_2d).
Local Abbreviation voronoi_layer_ := (voronoi_layer Voronoi voronoi_plot_2d).
Local Abbreviation module_load_ := (module_load seed_state random_sample).
Local Abbreviation np_random_rand_ := (np_random_rand random_sample).

(** ** The generator *)

Lemma np_random_rand_length (n : nat) (g : rng_state) :
  List.length (fst (np_random_rand_ n g)) = n.
Proof.
  revert g; induction n as [| n IH]; intros g; simpl.
  - reflexivity.
  - destruct (random_sample g) as [x g1], (random_sample g1) as [y g2].
    specialize (IH g2). destruct (np_random_rand_ n g2) as [rows g3].
    simpl in *. now rewrite IH.
Qed.

Lemma module_load_points (g0 : rng_state) :
  fst (module_load_ g0)
  = seed_points ++ fst (np_random_rand_ POINT_COUNT (seed_state 42)).
Proof.
  unfold module_load, np_random_seed.
  now destruct (np_random_rand_ POINT_COUNT (seed_state 42)).
Qed.

(** ** One call of the callback *)

Ltac run :=
  unfold bind, ret, call, append_point, on_axes, get_current_points,
         try_except, print, call_on_axes; cbn [fst snd current_points ax stdout].

(** The loop over the simplices, as the fold [plot_simplices]. *)
Lemma for_each_draw_simplex (pts : list point) (tri : list simplex) (s : State) :
  for_each tri (draw_simplex pts) s
  = match plot_simplices pts tri (ax s) with
    | (a, None) => (inl tt, mkState (current_points s) a (stdout s))
    | (a, Some e) => (inr e, mkState (current_points s) a (stdout s))
    end.
Proof.
  revert s; induction tri as [| t tri IH]; intros s.
  - simpl. unfold ret. now rewrite State_eta.
  - cbn [for_each plot_simplices]. unfold draw_simplex at 1. run.
    destruct (take pts t) as [rows | e].
    + rewrite IH. reflexivity.
    + now rewrite State_eta.
Qed.

(** A frame index outside [all_points] raises before anything is touched. *)
Lemma update_out_of_range (all_points : list point) (frame : nat) (st : State) :
  nth_error all_points frame = None ->
  update_ all_points frame st
  = (inr (IndexError frame (List.length all_points)), st).
Proof.
  intros H. unfold update, getitem. run. now rewrite H.
Qed.

(** A frame index inside [all_points]: the point is appended and the axes
    are the frame drawn from scratch for the longer list. *)
Lemma update_in_range (all_points : list point) (frame : nat) (st : State) (p : point) :
  nth_error all_points frame = Some p ->
  update_ all_points frame st
  = (inl [],
     mkState (current_points st ++ [p])
             (fst (batch_frame_ frame (current_points st ++ [p])))
             (stdout st ++ snd (batch_frame_ frame (current_points st ++ [p])))).
Proof.
  intros H. unfold update, getitem, batch_frame, voronoi_layer. run. rewrite H. run.
  fold (marker_axes frame (current_points st ++ [p])).
  destruct (3 <=? List.length (current_points st ++ [p])).
  - destruct (Delaunay (current_points st ++ [p])) as [tri | e]; run.
    + rewrite for_each_draw_simplex. run.
      destruct (plot_simplices _ tri _) as [a [e |]]; run.
      * now rewrite app_nil_r.
      * destruct (Voronoi _) as [vor | e]; run; [| reflexivity].
        destruct (voronoi_plot_2d vor a) as [a' [e |]]; run;
          [reflexivity | now rewrite app_nil_r].
    + now rewrite app_nil_r.
  - now rewrite app_nil_r.
Qed.

(** Fewer than three points: markers only, whatever the libraries are. *)
Lemma batch_frame_short (frame : nat) (pts : list point) :
  List.length pts < 3 ->
  batch_frame_ frame pts = (marker_axes frame pts, []).
Proof.
  intros H. unfold batch_frame.
  destruct (Nat.leb_spec 3 (List.length pts)); [lia | reflexivity].
Qed.

(** [Delaunay] raises: the markers under the failure title. *)
Lemma batch_frame_refused (frame : nat) (pts : list point) (e : exn) :
  3 <= List.length pts ->
  Delaunay pts = inr e ->
  batch_frame_ frame pts
  = (Axes_set_title (marker_axes frame pts) (failure_title frame e), []).
Proof.
  intros H He. unfold batch_frame. apply Nat.leb_le in H. now rewrite H, He.
Qed.

(** ** Sequences of calls *)

Lemma deliver_cons (all_points : list point) (frame : nat) (frames : list nat)
      (st : State) :
  deliver_ all_points (frame :: frames) st
  = match update_ all_points frame st with
    | (inl _, s') => deliver_ all_points frames s'
    | (inr e, s') => (inr e, s')
    end.
Proof.
  unfold deliver. cbn [for_each]. unfold bind, ret.
  now destruct (update_ all_points frame st) as [[l | e] s'].
Qed.

Lemma deliver_app (all_points : list point) (xs ys : list nat) (st : State) :
  deliver_ all_points (xs ++ ys) st
  = match deliver_ all_points xs st with
    | (inl _, s') => deliver_ all_points ys s'
    | (inr e, s') => (inr e, s')
    end.
Proof. unfold deliver. apply for_each_app. Qed.

(** Indices inside [all_points]: no call raises and the list grows by the
    rows the indices name. *)
Lemma deliver_stores (all_points : list point) (frames : list nat) (st : State) :
  Forall (fun frame => frame < List.length all_points) frames ->
  fst (deliver_ all_points frames st) = inl tt
  /\ current_points (snd (deliver_ all_points frames st))
     = current_points st ++ rows_named all_points frames.
Proof.
  intros Hin. revert st. induction Hin as [| frame frames Hf _ IH]; intros st.
  - cbn. now rewrite app_nil_r.
  - destruct (nth_error_in_range all_points frame Hf) as [p Hp].
    rewrite deliver_cons, (update_in_range _ _ _ _ Hp).
    destruct (IH (mkState (current_points st ++ [p])
                          (fst (batch_frame_ frame (current_points st ++ [p])))
                          (stdout st ++ snd (batch_frame_ frame (current_points st ++ [p])))))
      as [Hok Hpts].
    split; [exact Hok |]. rewrite Hpts. cbn [current_points rows_named flat_map].
    rewrite Hp. now rewrite <- app_assoc.
Qed.

Lemma rows_named_app (all_points : list point) (xs ys : list nat) :
  rows_named all_points (xs ++ ys)
  = rows_named all_points xs ++ rows_named all_points ys.
Proof. unfold rows_named. apply flat_map_app. Qed.

Lemma rows_named_range (all_points : list point) (k : nat) :
  k <= List.length all_points ->
  rows_named all_points (seq 0 k) = firstn k all_points.
Proof.
  induction k as [| k IH]; intros Hk.
  - reflexivity.
  - destruct (nth_error_in_range all_points k) as [p Hp]; [lia |].
    rewrite seq_S, rows_named_app, IH by lia. cbn [Nat.add rows_named flat_map].
    now rewrite Hp, (firstn_snoc _ _ _ Hp).
Qed.

(** The initial draw names the first row, when there is one. *)
Lemma rows_named_initial (all_points : list point) :
  rows_named all_points (firstn 1 (seq 0 (List.length all_points)))
  = firstn 1 all_points.
Proof. now destruct all_points. Qed.

Lemma calls_in_range (n k : nat) :
  k <= n -> Forall (fun frame => frame < n) (firstn 1 (seq 0 n) ++ seq 0 k).
Proof.
  intros Hk. apply Forall_forall. intros frame Hin.
  apply in_app_or in Hin. destruct Hin as [Hin | Hin].
  - destruct n; cbn in Hin; [contradiction |]. destruct Hin as [<- | []]. lia.
  - apply in_seq in Hin. lia.
Qed.

(** ** The run of the animation *)

Lemma animate_S (all_points : list point) (k : nat) (st : State) :
  animate_ all_points (S k) st
  = match animate_ all_points k st with
    | (inl _, s') =>
      match update_ all_points k s' with
      | (inl _, s'') => (inl tt, s'')
      | (inr e, s'') => (inr e, s'')
      end
    | (inr e, s') => (inr e, s')
    end.
Proof.
  unfold animate. rewrite seq_S, app_assoc, deliver_app. cbn [Nat.add].
  destruct (deliver_ all_points _ st) as [[[] | e] s']; [| reflexivity].
  rewrite deliver_cons.
  now destruct (update_ all_points k s') as [[l | e] s''].
Qed.

(** After the initial draw and [k] frames no call has raised, and the
    list holds the first point followed by the first [k] points. *)
Lemma animate_points (all_points : list point) (k : nat) (st : State) :
  k <= List.length all_points ->
  fst (animate_ all_points k st) = inl tt
  /\ current_points (snd (animate_ all_points k st))
     = current_points st ++ firstn 1 all_points ++ firstn k all_points.
Proof.
  intros Hk. unfold animate.
  destruct (deliver_stores all_points _ st (calls_in_range _ k Hk)) as [Hok Hpts].
  split; [exact Hok |].
  now rewrite Hpts, rows_named_app, rows_named_initial, rows_named_range.
Qed.

(** The axes after frame [k], from the state the earlier calls left. *)
Lemma animate_frame (all_points : list point) (k : nat) (p : point) :
  nth_error all_points k = Some p ->
  fst (animate_ all_points (S k) main_setup) = inl tt
  /\ current_points (snd (animate_ all_points (S k) main_setup))
     = firstn 1 all_points ++ firstn (S k) all_points
  /\ ax (snd (animate_ all_points (S k) main_setup))
     = fst (batch_frame_ k (firstn 1 all_points ++ firstn (S k) all_points)).
Proof.
  intros Hp.
  assert (Hk : k < List.length all_points).
  { apply nth_error_Some. now rewrite Hp. }
  destruct (animate_points all_points k main_setup) as [Hok Hpts]; [lia |].
  rewrite animate_S.
  destruct (animate_ all_points k main_setup) as [[[] | e] s'];
    cbn [fst snd] in *; [| discriminate].
  rewrite (update_in_range _ _ _ _ Hp). cbn [fst snd current_points ax].
  rewrite Hpts. cbn [main_setup current_points app].
  rewrite (firstn_snoc _ _ _ Hp), <- app_assoc. auto.
Qed.

(** ** The frames of the animation *)

(** C2 (the code departs from it).  The initial draw of the figure runs
    the callback on frame 0 before the timer delivers frame 0 again.  So
    at frame [f] the list is not the first [f + 1] points of [all_points]
    but the first point followed by them, [f + 2] rows, and the axes are
    the frame drawn from scratch ([batch_frame]) for that longer list. *)
Theorem frame_is_recomputed_over_stored_list (all_points : list point) (f : nat) :
  f < List.length all_points ->
  let stored := firstn 1 all_points ++ firstn (f + 1) all_points in
  let st := snd (animate_ all_points (S f) main_setup) in
  fst (animate_ all_points (S f) main_setup) = inl tt
  /\ current_points st = stored
  /\ List.length stored = f + 2
  /\ ax st = fst (batch_frame_ f stored).
Proof.
  intros Hf stored st. subst stored st. rewrite Nat.add_1_r.
  destruct (nth_error_in_range all_points f Hf) as [p Hp].
  destruct (animate_frame all_points f p Hp) as [Hok [Hpts Hax]].
  repeat split; try assumption.
  rewrite length_app, !length_firstn. lia.
Qed.

(** C9.  Two executions that start with different generator states [g0]
    and [g0'] build the same [all_points]: the three literal seed rows
    followed by [POINT_COUNT] generated rows, since the generator is reset
    from the constant 42 before the rows are drawn.  Hence the state after
    any number of frames is the same in both executions. *)
Theorem all_points_deterministic (g0 g0' : rng_state) :
  fst (module_load_ g0) = fst (module_load_ g0')
  /\ firstn 3 (fst (module_load_ g0)) = seed_points
  /\ List.length (fst (module_load_ g0)) = 3 + POINT_COUNT
  /\ forall k : nat,
       animate_ (fst (module_load_ g0)) k main_setup
       = animate_ (fst (module_load_ g0')) k main_setup.
Proof.
  rewrite (module_load_points g0), (module_load_points g0').
  repeat split.
  rewrite length_app, np_random_rand_length. reflexivity.
Qed.

(** ** What the callback does when something goes wrong *)

(** C3 (as the code has it).  A point that is already in the list is not
    rejected: the callback returns normally, the list is the old one
    followed by the point, one entry longer, and the axes are the frame
    drawn from scratch for that longer list, the repeat included. *)
Theorem duplicate_point_is_appended
        (all_points : list point) (frame : nat) (st : State) (p : point) :
  nth_error all_points frame = Some p ->
  In p (current_points st) ->
  fst (update_ all_points frame st) = inl []
  /\ current_points (snd (update_ all_points frame st)) = current_points st ++ [p]
  /\ List.length (current_points (snd (update_ all_points frame st)))
     = S (List.length (current_points st))
  /\ ax (snd (update_ all_points frame st))
     = fst (batch_frame_ frame (current_points st ++ [p])).
Proof.
  intros Hp _. rewrite (update_in_range _ _ _ _ Hp). cbn [fst snd current_points ax].
  repeat split. rewrite length_app. cbn [List.length]. lia.
Qed.

(** C4 (as the code has it).  The literal seed is not collinear.  For any
    [all_points], collinear at the start or not, no frame of the run
    raises and the points of the frames so far are all stored.  A frame
    that triangulates and on which [Delaunay] raises shows the markers of
    the stored points under the failure title of its step, and the run
    goes on: the statement holds for every frame index. *)
Theorem refused_seed_is_not_fatal (all_points : list point) (k : nat) :
  k < List.length all_points ->
  let st := snd (animate_ all_points (S k) main_setup) in
  collinear_rows seed_points = false
  /\ fst (animate_ all_points (S k) main_setup) = inl tt
  /\ incl (firstn (S k) all_points) (current_points st)
  /\ forall e : exn,
       3 <= List.length (current_points st) ->
       Delaunay (current_points st) = inr e ->
       ax st = Axes_set_title (marker_axes k (current_points st)) (failure_title k e).
Proof.
  intros Hk st. subst st.
  destruct (nth_error_in_range all_points k Hk) as [p Hp].
  destruct (animate_frame all_points k p Hp) as [Hok [Hpts Hax]].
  split; [reflexivity |]. split; [exact Hok |]. split.
  - rewrite Hpts. apply incl_appr, incl_refl.
  - intros e Hlen He. rewrite Hax, <- Hpts.
    now rewrite (batch_frame_refused _ _ _ Hlen He).
Qed.

(** C5 (as the code has it).  A frame index outside [all_points] raises
    [IndexError] with the state untouched.  A frame on which [Delaunay]
    raises is not undone: the callback returns normally, the new point
    stays in the list, and the axes, cleared and redrawn, hold the markers
    under the failure title. *)
Theorem failed_frame_is_not_rolled_back
        (all_points : list point) (frame : nat) (st : State) :
  (nth_error all_points frame = None ->
   update_ all_points frame st
   = (inr (IndexError frame (List.length all_points)), st))
  /\ (forall (p : point) (e : exn),
        nth_error all_points frame = Some p ->
        3 <= List.length (current_points st ++ [p]) ->
        Delaunay (current_points st ++ [p]) = inr e ->
        update_ all_points frame st
        = (inl [],
           mkState (current_points st ++ [p])
                   (Axes_set_title (marker_axes frame (current_points st ++ [p]))
                                   (failure_title frame e))
                   (stdout st))).
Proof.
  split.
  - apply update_out_of_range.
  - intros p e Hp Hlen He. rewrite (update_in_range _ _ _ _ Hp).
    rewrite (batch_frame_refused _ _ _ Hlen He).
    cbn [fst snd]. now rewrite app_nil_r.
Qed.

(** C8 (as the code has it).  The triangles of a frame are drawn on the
    axes [a]; then the Voronoi part fails with [e].  Either way the
    callback returns normally, the point stays stored and one line naming
    the frame and the error is printed.  If [Voronoi] raised, the axes
    are exactly [a]: no part of a diagram, no flagged cell, title and
    triangles as they were.  If [voronoi_plot_2d] raised, the axes are as
    it left them: what it drew before raising stays. *)
Theorem voronoi_failure_skips_the_diagram
        (all_points : list point) (frame : nat) (st : State) (p : point)
        (tri : list simplex) (a a_end : Axes) (e : exn) :
  nth_error all_points frame = Some p ->
  3 <= List.length (current_points st ++ [p]) ->
  Delaunay (current_points st ++ [p]) = inl tri ->
  plot_simplices (current_points st ++ [p]) tri
                 (marker_axes frame (current_points st ++ [p]))
  = (a, None) ->
  (Voronoi (current_points st ++ [p]) = inr e /\ a_end = a
   \/ exists vor : Vor,
        Voronoi (current_points st ++ [p]) = inl vor
        /\ voronoi_plot_2d vor a = (a_end, Some e)) ->
  update_ all_points frame st
  = (inl [],
     mkState (current_points st ++ [p]) a_end
             (stdout st ++ [voronoi_message frame e])).
Proof.
  intros Hp Hlen Htri Hdraw Hvor. rewrite (update_in_range _ _ _ _ Hp).
  unfold batch_frame, voronoi_layer.
  apply Nat.leb_le in Hlen. rewrite Hlen, Htri, Hdraw.
  destruct Hvor as [[Hv ->] | [vor [Hv Hplot]]]; rewrite Hv; [| rewrite Hplot];
    reflexivity.
Qed.

End Properties.

(** C10.  On a frame that leaves fewer than three points in the list, the
    callback returns normally with the point stored, the step title, and
    the one marker line as the only artist; the printed lines are
    untouched.  The outcome does not mention the libraries: with any other
    [Delaunay], [Voronoi] and [voronoi_plot_2d], raising or not, the frame
    is the same, so neither the triangulation nor its error branch is
    reached. *)
Theorem short_frame_draws_markers_only
        (Vor1 Vor2 : Type)
        (Delaunay1 Delaunay2 : list point -> list simplex + exn)
        (Voronoi1 : list point -> Vor1 + exn) (Voronoi2 : list point -> Vor2 + exn)
        (plot1 : Vor1 -> Axes -> Axes * option exn)
        (plot2 : Vor2 -> Axes -> Axes * option exn)
        (all_points : list point) (frame : nat) (st : State) (p : point) :
  nth_error all_points frame = Some p ->
  List.length (current_points st ++ [p]) < 3 ->
  update Delaunay1 Voronoi1 plot1 all_points frame st
  = (inl [],
     mkState (current_points st ++ [p])
             (Axes_plot
                (Axes_set_title (configure_axes fresh_axes)
                                (step_title frame (List.length (current_points st ++ [p]))))
                (column0 (current_points st ++ [p]))
                (column1 (current_points st ++ [p])) "ro")
             (stdout st))
  /\ update Delaunay2 Voronoi2 plot2 all_points frame st
     = update Delaunay1 Voronoi1 plot1 all_points frame st.
Proof.
  intros Hp Hlen.
  rewrite (update_in_range Delaunay1 Vor1 Voronoi1 plot1 _ _ _ _ Hp).
  rewrite (update_in_range Delaunay2 Vor2 Voronoi2 plot2 _ _ _ _ Hp).
  rewrite !batch_frame_short by exact Hlen.
  cbn [fst snd]. rewrite app_nil_r. split; reflexivity.
Qed.

(** ** The properties at concrete inputs *)

Lemma frame_is_recomputed_over_stored_list_example :
  3 < List.length Examples.with_centre
  /\ fst (Examples.run Examples.with_centre 4) = inl tt
  /\ current_points (snd (Examples.run Examples.with_centre 4))
     = firstn 1 Examples.with_centre ++ firstn (3 + 1) Examples.with_centre
  /\ List.length (firstn 1 Examples.with_centre ++ firstn (3 + 1) Examples.with_centre)
     = 3 + 2
  /\ ax (snd (Examples.run Examples.with_centre 4))
     = fst (batch_frame Oracle.Delaunay Oracle.Voronoi Oracle.voronoi_plot_2d 3
                        (firstn 1 Examples.with_centre
                           ++ firstn (3 + 1) Examples.with_centre)).
Proof.
  split; [cbn; lia |].
  apply (frame_is_recomputed_over_stored_list
           Oracle.Delaunay Oracle.Vor Oracle.Voronoi Oracle.voronoi_plot_2d
           Examples.with_centre 3).
  cbn; lia.
Defined.

Lemma duplicate_point_is_appended_example :
  let st := snd (Examples.frames Examples.with_repeat 3) in
  let r := update Oracle.Delaunay Oracle.Voronoi Oracle.voronoi_plot_2d
                  Examples.with_repeat 3 st in
  fst r = inl []
  /\ current_points (snd r) = current_points st ++ [(0.2, 0.2)%float]
  /\ List.length (current_points (snd r)) = S (List.length (current_points st))
  /\ ax (snd r)
     = fst (batch_frame Oracle.Delaunay Oracle.Voronoi Oracle.voronoi_plot_2d 3
                        (current_points st ++ [(0.2, 0.2)%float])).
Proof.
  apply (duplicate_point_is_appended
           Oracle.Delaunay Oracle.Vor Oracle.Voronoi Oracle.voronoi_plot_2d
           Examples.with_repeat 3 (snd (Examples.frames Examples.with_repeat 3))
           (0.2, 0.2)%float).
  - reflexivity.
  - vm_compute. left. reflexivity.
Defined.

Lemma refused_seed_is_not_fatal_example :
  let st := snd (Examples.run Examples.flat_start 3) in
  collinear_rows seed_points = false
  /\ fst (Examples.run Examples.flat_start 3) = inl tt
  /\ incl (firstn 3 Examples.flat_start) (current_points st)
  /\ forall e : exn,
       3 <= List.length (current_points st) ->
       Oracle.Delaunay (current_points st) = inr e ->
       ax st = Axes_set_title (marker_axes 2 (current_points st)) (failure_title 2 e).
Proof.
  apply (refused_seed_is_not_fatal
           Oracle.Delaunay Oracle.Vor Oracle.Voronoi Oracle.voronoi_plot_2d
           Examples.flat_start 2).
  cbn; lia.
Defined.

Lemma failed_frame_is_not_rolled_back_example :
  update Oracle.Delaunay Oracle.Voronoi Oracle.voronoi_plot_2d
         Examples.flat_start 4 (snd (Examples.frames Examples.flat_start 2))
  = (inr (IndexError 4 4), snd (Examples.frames Examples.flat_start 2))
  /\ update Oracle.Delaunay Oracle.Voronoi Oracle.voronoi_plot_2d
            Examples.flat_start 2 (snd (Examples.frames Examples.flat_start 2))
     = (inl [],
        mkState (current_points (snd (Examples.frames Examples.flat_start 2))
                   ++ [(2, 0)%float])
                (Axes_set_title
                   (marker_axes 2
                      (current_points (snd (Examples.frames Examples.flat_start 2))
                         ++ [(2, 0)%float]))
                   (failure_title 2
                      (Oracle.QhullError
                         "QH6154 Qhull precision error: Initial simplex is flat")))
                (stdout (snd (Examples.frames Examples.flat_start 2)))).
Proof.
  split.
  - apply (proj1 (failed_frame_is_not_rolled_back
                    Oracle.Delaunay Oracle.Vor Oracle.Voronoi Oracle.voronoi_plot_2d
                    Examples.flat_start 4
                    (snd (Examples.frames Examples.flat_start 2)))).
    reflexivity.
  - apply (proj2 (failed_frame_is_not_rolled_back
                    Oracle.Delaunay Oracle.Vor Oracle.Voronoi Oracle.voronoi_plot_2d
                    Examples.flat_start 2
                    (snd (Examples.frames Examples.flat_start 2)))).
    + reflexivity.
    + vm_compute. lia.
    + reflexivity.
Defined.

Lemma voronoi_failure_skips_the_diagram_example :
  let st := snd (Examples.frames_without_voronoi Examples.with_centre 3) in
  let pts := current_points st ++ [(0.5, 0.5)%float] in
  let tri := [(0, 1, 3); (0, 3, 2); (1, 2, 3)] in
  let a := fst (plot_simplices pts tri (marker_axes 3 pts)) in
  update Oracle.Delaunay Oracle.Voronoi_failing Oracle.voronoi_plot_2d
         Examples.with_centre 3 st
  = (inl [],
     mkState pts a
             (stdout st
                ++ [voronoi_message 3
                      (Oracle.QhullError
                         "QH6019 qhull input error: can not scale last coordinate")]))
  /\ update Oracle.Delaunay Oracle.Voronoi Oracle.voronoi_plot_2d_interrupted
            Examples.with_centre 3 st
     = (inl [],
        mkState pts
                (mkAxes (xlim a) (ylim a) (aspect a) (title a)
                        (artists a ++ [Line2D (column0 pts) (column1 pts) "."]))
                (stdout st
                   ++ [voronoi_message 3
                         (Exn "ValueError" "interrupted while drawing the ridges")])).
Proof.
  intros st pts tri a. split.
  - apply (voronoi_failure_skips_the_diagram
             Oracle.Delaunay Oracle.Vor Oracle.Voronoi_failing Oracle.voronoi_plot_2d
             Examples.with_centre 3 st (0.5, 0.5)%float tri a a).
    + reflexivity.
    + vm_compute. lia.
    + reflexivity.
    + reflexivity.
    + left. split; reflexivity.
  - apply (voronoi_failure_skips_the_diagram
             Oracle.Delaunay Oracle.Vor Oracle.Voronoi
             Oracle.voronoi_plot_2d_interrupted
             Examples.with_centre 3 st (0.5, 0.5)%float tri a).
    + reflexivity.
    + vm_compute. lia.
    + reflexivity.
    + reflexivity.
    + right. eexists. split; reflexivity.
Defined.

Lemma short_frame_draws_markers_only_example :
  let st := snd (Examples.frames Examples.with_centre 1) in
  let pts := current_points st ++ [(0.8, 0.2)%float] in
  update Oracle.Delaunay Oracle.Voronoi Oracle.voronoi_plot_2d
         Examples.with_centre 1 st
  = (inl [],
     mkState pts
             (Axes_plot
                (Axes_set_title (configure_axes fresh_axes)
                                (step_title 1 (List.length pts)))
                (column0 pts) (column1 pts) "ro")
             (stdout st))
  /\ update Oracle.Delaunay Oracle.Voronoi_failing Oracle.voronoi_plot_2d
            Examples.with_centre 1 st
     = update Oracle.Delaunay Oracle.Voronoi Oracle.voronoi_plot_2d
              Examples.with_centre 1 st.
Proof.
  intros st pts.
  apply (short_frame_draws_markers_only
           Oracle.Vor Oracle.Vor Oracle.Delaunay Oracle.Delaunay
           Oracle.Voronoi Oracle.Voronoi_failing
           Oracle.voronoi_plot_2d Oracle.voronoi_plot_2d
           Examples.with_centre 1 st (0.8, 0.2)%float).
  - reflexivity.
  - vm_compute. lia.
Defined.

(** ** Where the callback departs from a rejecting, rolling-back engine *)

(** C3, as stated, fails.  After one call for each of the three seed
    rows the list holds (0.2, 0.2); the fourth point is (0.2, 0.2) again.
    The callback does not reject it: it returns normally and the list
    grows from three entries to four, the last equal to the first. *)
Lemma duplicate_point_is_not_rejected :
  let st := snd (Examples.frames Examples.with_repeat 3) in
  let r := update Oracle.Delaunay Oracle.Voronoi Oracle.voronoi_plot_2d
                  Examples.with_repeat 3 st in
  current_points st = seed_points
  /\ nth_error Examples.with_repeat 3 = nth_error (current_points st) 0
  /\ fst r = inl []
  /\ List.length (current_points (snd r)) = 4
  /\ nth_error (current_points (snd r)) 3 = nth_error (current_points (snd r)) 0.
Proof.
  vm_compute. repeat split.
Qed.

(** C4, as stated, fails.  With the first three points on one line, no
    frame of the run raises: after frame 2 the three points are stored
    (the first one twice, by the initial draw), the frame only shows the
    failure in its title, and frame 3 draws triangle outlines. *)
Lemma collinear_seed_is_inserted :
  collinear_rows Examples.flat_start = true
  /\ fst (Examples.run Examples.flat_start 3) = inl tt
  /\ current_points (snd (Examples.run Examples.flat_start 3))
     = [ (0, 0); (0, 0); (1, 0); (2, 0) ]%float
  /\ title (ax (snd (Examples.run Examples.flat_start 3)))
     = failure_title 2
         (Oracle.QhullError "QH6154 Qhull precision error: Initial simplex is flat")
  /\ fst (Examples.run Examples.flat_start 4) = inl tt
  /\ existsb Examples.is_outline
             (artists (ax (snd (Examples.run Examples.flat_start 4))))
     = true.
Proof.
  vm_compute. repeat split.
Qed.

(** C5, as stated, fails.  The third point of a flat start makes
    [Delaunay] raise; the callback returns normally all the same, and the
    state it leaves is not the one it found: the list has three points
    instead of two, and the axes carry the failure title. *)
Lemma refused_frame_keeps_the_point :
  let before := snd (Examples.frames Examples.flat_start 2) in
  let r := update Oracle.Delaunay Oracle.Voronoi Oracle.voronoi_plot_2d
                  Examples.flat_start 2 before in
  Oracle.Delaunay (current_points (snd r))
  = inr (Oracle.QhullError "QH6154 Qhull precision error: Initial simplex is flat")
  /\ fst r = inl []
  /\ List.length (current_points before) = 2
  /\ List.length (current_points (snd r)) = 3
  /\ title (ax before) = step_title 1 2
  /\ title (ax (snd r))
     = failure_title 2
         (Oracle.QhullError "QH6154 Qhull precision error: Initial simplex is flat").
Proof.
  vm_compute. repeat split.
Qed.

(** C8, as stated, fails.  With a [Voronoi] that raises, the frame of the
    fourth point holds the markers and the three triangle outlines and
    nothing else: no collection of Voronoi edges, no cell, flagged or not.
    The failure is a printed line per frame. *)
Lemma voronoi_failure_draws_no_cell :
  let st := snd (Examples.frames_without_voronoi Examples.with_centre 4) in
  fst (Examples.frames_without_voronoi Examples.with_centre 4) = inl tt
  /\ List.length (artists (ax st)) = 4
  /\ List.length (filter Examples.is_outline (artists (ax st))) = 3
  /\ filter Examples.is_collection (artists (ax st)) = []
  /\ title (ax st) = step_title 3 4
  /\ stdout st
     = [ voronoi_message 2
           (Oracle.QhullError "QH6019 qhull input error: can not scale last coordinate");
         voronoi_message 3
           (Oracle.QhullError "QH6019 qhull input error: can not scale last coordinate") ].
Proof.
  vm_compute. repeat split.
Qed.

(** ** The whole run *)

Section Run.

Variable Delaunay : list point -> list simplex + exn.
Variable Vor : Type.
Variable Voronoi : list point -> Vor + exn.
Variable voronoi_plot_2d : Vor -> Axes -> Axes * option exn.
Variable all_points : list point.

(** [main] runs the initial draw and every frame without an exception
    reaching the driver, whatever the libraries raise on the way.  It
    ends with every point of [all_points] stored in order, behind one more
    copy of the first point, which the initial draw stored. *)
Theorem main_stores_first_point_twice :
  fst (main Delaunay Voronoi voronoi_plot_2d all_points) = inl tt
  /\ current_points (snd (main Delaunay Voronoi voronoi_plot_2d all_points))
     = firstn 1 all_points ++ all_points.
Proof.
  unfold main.
  destruct (animate_points Delaunay Vor Voronoi voronoi_plot_2d all_points
                           (List.length all_points) main_setup (le_n _))
    as [Hok Hpts].
  split; [exact Hok |].
  rewrite Hpts. cbn [main_setup current_points app]. now rewrite firstn_all.
Qed.

(** A frame owes nothing to the axes it finds: two states with the same
    stored points get the same axes from the same frame. *)
Theorem frame_forgets_previous_axes (frame : nat) (st st' : State) :
  frame < List.length all_points ->
  current_points st = current_points st' ->
  ax (snd (update Delaunay Voronoi voronoi_plot_2d all_points frame st))
  = ax (snd (update Delaunay Voronoi voronoi_plot_2d all_points frame st')).
Proof.
  intros Hf Hsame.
  destruct (nth_error_in_range all_points frame Hf) as [p Hp].
  rewrite !(update_in_range Delaunay Vor Voronoi voronoi_plot_2d _ _ _ _ Hp).
  cbn [snd ax]. now rewrite Hsame.
Qed.

End Run.

Lemma frame_forgets_previous_axes_example :
  ax (snd (update Oracle.Delaunay Oracle.Voronoi Oracle.voronoi_plot_2d
                  Examples.with_centre 3
                  (snd (Examples.frames Examples.with_centre 3))))
  = ax (snd (update Oracle.Delaunay Oracle.Voronoi Oracle.voronoi_plot_2d
                    Examples.with_centre 3
                    (mkState seed_points fresh_axes []))).
Proof.
  apply (frame_forgets_previous_axes
           Oracle.Delaunay Oracle.Vor Oracle.Voronoi Oracle.voronoi_plot_2d
           Examples.with_centre 3).
  - cbn; lia.
  - reflexivity.
Defined.

(** ** More on the callback: the drawing loop, bad simplices, growth *)

Lemma getitem_in_range (pts : list point) (i : nat) :
  i < List.length pts -> getitem pts i = inl (nth i pts (0%float, 0%float)).
Proof.
  intros H. unfold getitem. now rewrite (nth_error_nth' pts (0%float, 0%float) H).
Qed.

Lemma getitem_out_of_range (pts : list point) (i : nat) :
  List.length pts <= i -> getitem pts i = inr (IndexError i (List.length pts)).
Proof.
  intros H. unfold getitem. apply nth_error_None in H. now rewrite H.
Qed.

Lemma take_in_range (pts : list point) (i j k : nat) :
  simplex_in_range (List.length pts) (i, j, k) ->
  take pts (i, j, k)
  = inl [nth i pts (0%float, 0%float); nth j pts (0%float, 0%float);
         nth k pts (0%float, 0%float)].
Proof.
  intros (Hi & Hj & Hk). unfold take.
  now rewrite (getitem_in_range _ _ Hi), (getitem_in_range _ _ Hj),
              (getitem_in_range _ _ Hk).
Qed.

(** A simplex with an index past the end: the first such index, in the
    order the rows are fetched, is the one the [IndexError] names. *)
Lemma take_out_of_range (pts : list point) (t : simplex) :
  ~ simplex_in_range (List.length pts) t ->
  exists idx : nat,
    List.length pts <= idx /\ take pts t = inr (IndexError idx (List.length pts)).
Proof.
  destruct t as [[i j] k]. intros Hbad. unfold take.
  destruct (Nat.lt_ge_cases i (List.length pts)) as [Hi | Hi].
  - rewrite (getitem_in_range _ _ Hi).
    destruct (Nat.lt_ge_cases j (List.length pts)) as [Hj | Hj].
    + rewrite (getitem_in_range _ _ Hj).
      destruct (Nat.lt_ge_cases k (List.length pts)) as [Hk | Hk].
      * exfalso. apply Hbad. cbn. auto.
      * exists k. now rewrite (getitem_out_of_range _ _ Hk).
    + exists j. now rewrite (getitem_out_of_range _ _ Hj).
  - exists i. now rewrite (getitem_out_of_range _ _ Hi).
Qed.

(** The axes with more artists behind the ones they hold. *)
Lemma plot_simplices_good (pts : list point) (good rest : list simplex) (a : Axes) :
  Forall (simplex_in_range (List.length pts)) good ->
  plot_simplices pts (good ++ rest) a
  = plot_simplices pts rest
      (mkAxes (xlim a) (ylim a) (aspect a) (title a)
              (artists a ++ map (outline pts) good)).
Proof.
  intros Hgood. revert a. induction Hgood as [| [[i j] k] good Ht _ IH]; intros a.
  - cbn [app map]. rewrite app_nil_r. now destruct a.
  - cbn [app plot_simplices]. rewrite (take_in_range _ _ _ _ Ht).
    rewrite IH. unfold Axes_plot, close_outline, column0, column1.
    cbn [xlim ylim aspect title artists map app fst snd outline].
    now rewrite <- app_assoc.
Qed.

Lemma plot_simplices_keeps (pts : list point) (tri : list simplex) (a : Axes) :
  title (fst (plot_simplices pts tri a)) = title a
  /\ exists extra : list artist,
       artists (fst (plot_simplices pts tri a)) = artists a ++ extra.
Proof.
  revert a. induction tri as [| t tri IH]; intros a; cbn [plot_simplices].
  - split; [reflexivity | exists []; now rewrite app_nil_r].
  - destruct (take pts t) as [rows | e].
    + destruct (IH (Axes_plot a (column0 (close_outline rows))
                              (column1 (close_outline rows)) "b-"))
        as [Ht [extra Ha]].
      split; [exact Ht |]. rewrite Ha. cbn [Axes_plot artists].
      eexists. now rewrite <- app_assoc.
    + split; [reflexivity | exists []; now rewrite app_nil_r].
Qed.

Section Coverage.

Variable Delaunay : list point -> list simplex + exn.
Variable Vor : Type.
Variable Voronoi : list point -> Vor + exn.
Variable voronoi_plot_2d : Vor -> Axes -> Axes * option exn.
Variable all_points : list point.

Local Abbreviation update_ := (update Delaunay Voronoi voronoi_plot_2d all_points).
Local Abbreviation batch_frame_ := (batch_frame Delaunay Voronoi voronoi_plot_2d).
Local Abbreviation deliver_ := (deliver Delaunay Voronoi voronoi_plot_2d all_points).

(** At most one line is printed for a frame, and none for a list of fewer
    than three points. *)
Lemma batch_frame_prints (frame : nat) (pts : list point) :
  List.length (snd (batch_frame_ frame pts)) <= 1
  /\ (List.length pts < 3 -> snd (batch_frame_ frame pts) = []).
Proof.
  split.
  - unfold batch_frame, voronoi_layer.
    destruct (3 <=? List.length pts); [| cbn; lia].
    destruct (Delaunay pts) as [tri | e]; [| cbn; lia].
    destruct (plot_simplices _ tri _) as [a [e |]]; [cbn; lia |].
    destruct (Voronoi pts) as [vor | e]; [| cbn; lia].
    destruct (voronoi_plot_2d vor a) as [a' [e |]]; cbn; lia.
  - intros H. now rewrite (batch_frame_short Delaunay Vor Voronoi voronoi_plot_2d).
Qed.

(** The loop [for triangle in tri.simplices] on simplices that all name
    rows of [pts]: it does not raise, and it adds one closed blue outline
    per simplex, in the order of the simplices, behind the artists already
    there.  Limits, aspect, title, stored points and printed lines are as
    before. *)
Theorem simplices_loop_draws_closed_outlines
        (pts : list point) (tri : list simplex) (s : State) :
  Forall (simplex_in_range (List.length pts)) tri ->
  for_each tri (draw_simplex pts) s
  = (inl tt,
     mkState (current_points s)
             (mkAxes (xlim (ax s)) (ylim (ax s)) (aspect (ax s)) (title (ax s))
                     (artists (ax s) ++ map (outline pts) tri))
             (stdout s)).
Proof.
  intros Hok. rewrite for_each_draw_simplex.
  rewrite <- (app_nil_r tri) at 1.
  rewrite (plot_simplices_good pts tri [] (ax s) Hok).
  reflexivity.
Qed.

(** A simplex that names a row the array does not have: the [IndexError]
    of the fetch is caught by the handler written for [Delaunay].  The
    callback returns normally; the outlines of the simplices before the
    bad one stay on the axes behind the markers; the title is the
    flat-configuration failure with the [IndexError] message; the later
    simplices are not drawn and the Voronoi diagram is not attempted, so
    nothing is printed. *)
Theorem bad_simplex_is_reported_as_delaunay_failure
        (frame : nat) (st : State) (p : point)
        (good rest : list simplex) (bad : simplex) :
  nth_error all_points frame = Some p ->
  3 <= List.length (current_points st ++ [p]) ->
  Delaunay (current_points st ++ [p]) = inl (good ++ bad :: rest) ->
  Forall (simplex_in_range (List.length (current_points st ++ [p]))) good ->
  ~ simplex_in_range (List.length (current_points st ++ [p])) bad ->
  exists idx : nat,
    List.length (current_points st ++ [p]) <= idx
    /\ update_ frame st
       = (inl [],
          mkState (current_points st ++ [p])
                  (mkAxes (0%float, 1%float) (0%float, 1%float) "equal"
                          (failure_title frame
                             (IndexError idx (List.length (current_points st ++ [p]))))
                          (markers (current_points st ++ [p])
                             :: map (outline (current_points st ++ [p])) good))
                  (stdout st)).
Proof.
  intros Hp Hlen Htri Hgood Hbad.
  destruct (take_out_of_range _ _ Hbad) as [idx [Hidx Htake]].
  exists idx. split; [exact Hidx |].
  rewrite (update_in_range Delaunay Vor Voronoi voronoi_plot_2d _ _ _ _ Hp).
  unfold batch_frame. apply Nat.leb_le in Hlen. rewrite Hlen, Htri.
  rewrite (plot_simplices_good _ good (bad :: rest) _ Hgood).
  cbn [plot_simplices]. rewrite Htake.
  cbn [fst snd]. now rewrite app_nil_r.
Qed.

(** Whatever the frame index, in range or not, and whatever the libraries
    do, one call only appends: the stored points and the printed lines of
    before are a prefix of those after, at most one point and at most one
    line are added, and no line is added while fewer than two points were
    stored. *)
Theorem update_only_appends (frame : nat) (st : State) :
  exists (new_points : list point) (new_lines : list string),
    current_points (snd (update_ frame st)) = current_points st ++ new_points
    /\ stdout (snd (update_ frame st)) = stdout st ++ new_lines
    /\ List.length new_points <= 1
    /\ List.length new_lines <= 1
    /\ (List.length (current_points st) < 2 -> new_lines = []).
Proof.
  destruct (nth_error all_points frame) as [p |] eqn:Hp.
  - rewrite (update_in_range Delaunay Vor Voronoi voronoi_plot_2d _ _ _ _ Hp).
    destruct (batch_frame_prints frame (current_points st ++ [p])) as [Hone Hnone].
    exists [p], (snd (batch_frame_ frame (current_points st ++ [p]))).
    cbn [snd current_points stdout List.length]. repeat split; auto.
    intros Hfew. apply Hnone. rewrite length_app. cbn [List.length]. lia.
  - rewrite (update_out_of_range Delaunay Vor Voronoi voronoi_plot_2d _ _ _ Hp).
    exists [], []. cbn [snd List.length]. rewrite !app_nil_r. repeat split; auto.
Qed.

(** The callback run for any sequence of frame indices inside
    [all_points], in any order and with repetitions: no exception reaches
    the driver, and the stored points grow by exactly the points the
    indices name, one per call, in the order of the calls.  An index
    delivered twice stores its point twice. *)
Theorem any_schedule_accumulates (frames : list nat) (st : State) :
  Forall (fun frame => frame < List.length all_points) frames ->
  exists added : list point,
    fst (deliver_ frames st) = inl tt
    /\ current_points (snd (deliver_ frames st)) = current_points st ++ added
    /\ map (nth_error all_points) frames = map Some added.
Proof.
  intros Hin. revert st. induction Hin as [| frame frames Hf _ IH]; intros st.
  - exists []. cbn. now rewrite app_nil_r.
  - destruct (nth_error_in_range all_points frame Hf) as [p Hp].
    rewrite deliver_cons.
    rewrite (update_in_range Delaunay Vor Voronoi voronoi_plot_2d _ _ _ _ Hp).
    destruct (IH (mkState (current_points st ++ [p])
                          (fst (batch_frame_ frame (current_points st ++ [p])))
                          (stdout st ++ snd (batch_frame_ frame (current_points st ++ [p])))))
      as [added [Hok [Hpts Hmap]]].
    exists (p :: added). split; [exact Hok |]. split.
    + rewrite Hpts. cbn [current_points]. now rewrite <- app_assoc.
    + cbn [map]. now rewrite Hp, Hmap.
Qed.

(** With a plotting routine that only adds artists and leaves the title
    alone, every frame inside [all_points] shows every stored point: the
    first artist is the red marker line over the whole list, the new point
    included.  Its title names step [frame + 1] and either the number of
    stored points or a Delaunay failure. *)
Theorem frame_shows_every_stored_point (frame : nat) (st : State) (p : point) :
  adds_artists_only voronoi_plot_2d ->
  nth_error all_points frame = Some p ->
  (exists rest : list artist,
     artists (ax (snd (update_ frame st)))
     = markers (current_points st ++ [p]) :: rest)
  /\ (title (ax (snd (update_ frame st)))
      = step_title frame (List.length (current_points st ++ [p]))
      \/ exists e : exn,
           title (ax (snd (update_ frame st))) = failure_title frame e).
Proof.
  intros Hplot Hp.
  rewrite (update_in_range Delaunay Vor Voronoi voronoi_plot_2d _ _ _ _ Hp).
  cbn [snd ax]. set (pts := current_points st ++ [p]).
  unfold batch_frame, voronoi_layer.
  destruct (3 <=? List.length pts).
  - destruct (Delaunay pts) as [tri | e].
    + destruct (plot_simplices_keeps pts tri (marker_axes frame pts))
        as [Ht [extra Ha]].
      destruct (plot_simplices pts tri (marker_axes frame pts)) as [a [e |]];
        cbn [fst] in Ht, Ha.
      * cbn [fst Axes_set_title artists title]. split.
        -- exists extra. exact Ha.
        -- right. now exists e.
      * assert (Hbase : (exists rest, artists a = markers pts :: rest)
                        /\ title a = step_title frame (List.length pts)).
        { split; [exists extra; exact Ha | exact Ht]. }
        destruct Hbase as [[rest Hrest] Htitle].
        destruct (Voronoi pts) as [vor | e]; cbn [fst].
        -- destruct (voronoi_plot_2d vor a) as [a' raised] eqn:Hcall.
           destruct (Hplot vor a a' raised Hcall) as [Ht' [more Ha']].
           assert (Hshown : (exists rest', artists a' = markers pts :: rest')
                            /\ title a' = step_title frame (List.length pts)).
           { split; [exists (rest ++ more); now rewrite Ha', Hrest |].
             now rewrite Ht'. }
           destruct raised as [e |]; cbn [fst];
             (split; [exact (proj1 Hshown) | left; exact (proj2 Hshown)]).
        -- split; [now exists rest | now left].
    + cbn [fst Axes_set_title artists title]. split.
      * now exists [].
      * right. now exists e.
  - cbn [fst]. split; [now exists [] | now left].
Qed.

(** A frame on which everything succeeds: [Delaunay] returns simplices
    that all name stored points, [Voronoi] returns a diagram, and
    [voronoi_plot_2d] returns.  The plotting routine is handed the unit
    square with the step title, the markers and one outline per simplex,
    for the diagram of the very list that was triangulated; the frame's
    axes are what it returns, and nothing is printed. *)
Theorem successful_frame_layers
        (frame : nat) (st : State) (p : point)
        (tri : list simplex) (vor : Vor) (a' : Axes) :
  nth_error all_points frame = Some p ->
  3 <= List.length (current_points st ++ [p]) ->
  Delaunay (current_points st ++ [p]) = inl tri ->
  Forall (simplex_in_range (List.length (current_points st ++ [p]))) tri ->
  Voronoi (current_points st ++ [p]) = inl vor ->
  voronoi_plot_2d vor
    (mkAxes (0%float, 1%float) (0%float, 1%float) "equal"
            (step_title frame (List.length (current_points st ++ [p])))
            (markers (current_points st ++ [p])
               :: map (outline (current_points st ++ [p])) tri))
  = (a', None) ->
  update_ frame st = (inl [], mkState (current_points st ++ [p]) a' (stdout st)).
Proof.
  intros Hp Hlen Htri Hok Hvor Hplot.
  assert (Hframe : batch_frame_ frame (current_points st ++ [p]) = (a', [])).
  { unfold batch_frame, voronoi_layer.
    apply Nat.leb_le in Hlen. rewrite Hlen, Htri.
    pose proof (plot_simplices_good (current_points st ++ [p]) tri []
                  (marker_axes frame (current_points st ++ [p])) Hok) as Hdraw.
    rewrite app_nil_r in Hdraw. rewrite Hdraw. cbn [plot_simplices].
    rewrite Hvor. unfold marker_axes, Axes_plot, Axes_set_title, configure_axes.
    cbn [xlim ylim aspect title artists fresh_axes app].
    fold (markers (current_points st ++ [p])). now rewrite Hplot. }
  rewrite (update_in_range Delaunay Vor Voronoi voronoi_plot_2d _ _ _ _ Hp).
  rewrite Hframe. cbn [fst snd]. now rewrite app_nil_r.
Qed.

(** Lines are printed only by calls that find at least two points
    stored: a sequence of calls adds at most one line per call, the calls
    that leave fewer than three points not counted. *)
Lemma deliver_prints (frames : list nat) (st : State) :
  List.length (stdout (snd (deliver_ frames st)))
  <= List.length (stdout st)
     + (List.length frames - (2 - List.length (current_points st))).
Proof.
  revert st. induction frames as [| frame frames IH]; intros st.
  - cbn. lia.
  - rewrite deliver_cons.
    destruct (nth_error all_points frame) as [p |] eqn:Hp.
    + rewrite (update_in_range Delaunay Vor Voronoi voronoi_plot_2d _ _ _ _ Hp).
      specialize (IH (mkState (current_points st ++ [p])
                              (fst (batch_frame_ frame (current_points st ++ [p])))
                              (stdout st
                                 ++ snd (batch_frame_ frame (current_points st ++ [p]))))).
      cbn [current_points stdout] in IH. rewrite !length_app in IH.
      destruct (batch_frame_prints frame (current_points st ++ [p])) as [Hone Hnone].
      rewrite length_app in Hnone. cbn [List.length] in *.
      destruct (Nat.lt_ge_cases (List.length (current_points st)) 2) as [Hfew | Hmany].
      * assert (Hzero : List.length
                          (snd (batch_frame_ frame (current_points st ++ [p]))) = 0)
          by (rewrite Hnone by lia; reflexivity).
        lia.
      * lia.
    + rewrite (update_out_of_range Delaunay Vor Voronoi voronoi_plot_2d _ _ _ Hp).
      cbn. lia.
Qed.

(** Over the run of the animation a line can be printed from frame 1 on,
    where the initial draw has brought the list to three rows: after [k]
    frames at most [k - 1] lines have been printed, none after the
    initial draw and frame 0. *)
Theorem run_prints_at_most_one_line_per_triangulating_frame (k : nat) :
  List.length
    (stdout (snd (animate Delaunay Voronoi voronoi_plot_2d all_points k main_setup)))
  <= k - 1.
Proof.
  unfold animate.
  pose proof (deliver_prints
                (firstn 1 (seq 0 (List.length all_points)) ++ seq 0 k) main_setup)
    as Hbound.
  rewrite length_app, length_seq in Hbound.
  assert (Hinit : List.length (firstn 1 (seq 0 (List.length all_points))) <= 1).
  { rewrite length_firstn. lia. }
  cbn [main_setup current_points stdout List.length] in Hbound. lia.
Qed.

End Coverage.

(** ** The further properties at concrete inputs *)

Lemma simplices_loop_draws_closed_outlines_example :
  for_each [(0, 1, 3); (0, 3, 2); (1, 2, 3)] (draw_simplex Examples.with_centre)
           main_setup
  = (inl tt,
     mkState (current_points main_setup)
             (mkAxes (xlim (ax main_setup)) (ylim (ax main_setup))
                     (aspect (ax main_setup)) (title (ax main_setup))
                     (artists (ax main_setup)
                        ++ map (outline Examples.with_centre)
                               [(0, 1, 3); (0, 3, 2); (1, 2, 3)]))
             (stdout main_setup)).
Proof.
  apply (simplices_loop_draws_closed_outlines
           Examples.with_centre [(0, 1, 3); (0, 3, 2); (1, 2, 3)] main_setup).
  repeat constructor; cbn; lia.
Defined.

Lemma bad_simplex_is_reported_as_delaunay_failure_example :
  let st := snd (Stale.frames seed_points 2) in
  let pts := current_points st ++ [(0.5, 0.8)%float] in
  exists idx : nat,
    List.length pts <= idx
    /\ update Stale.Delaunay Oracle.Voronoi Oracle.voronoi_plot_2d seed_points 2 st
       = (inl [],
          mkState pts
                  (mkAxes (0%float, 1%float) (0%float, 1%float) "equal"
                          (failure_title 2 (IndexError idx (List.length pts)))
                          (markers pts :: map (outline pts) [(0, 1, 2)]))
                  (stdout st)).
Proof.
  intros st pts.
  apply (bad_simplex_is_reported_as_delaunay_failure
           Stale.Delaunay Oracle.Vor Oracle.Voronoi Oracle.voronoi_plot_2d
           seed_points 2 st (0.5, 0.8)%float [(0, 1, 2)] [(1, 2, 0)] (0, 1, 7)).
  - reflexivity.
  - vm_compute. lia.
  - reflexivity.
  - repeat constructor; vm_compute; lia.
  - vm_compute. lia.
Defined.

Lemma any_schedule_accumulates_example :
  exists added : list point,
    fst (deliver Oracle.Delaunay Oracle.Voronoi Oracle.voronoi_plot_2d
                 Examples.with_centre [0; 0; 1] main_setup) = inl tt
    /\ current_points
         (snd (deliver Oracle.Delaunay Oracle.Voronoi Oracle.voronoi_plot_2d
                       Examples.with_centre [0; 0; 1] main_setup))
       = current_points main_setup ++ added
    /\ map (nth_error Examples.with_centre) [0; 0; 1] = map Some added.
Proof.
  apply (any_schedule_accumulates
           Oracle.Delaunay Oracle.Vor Oracle.Voronoi Oracle.voronoi_plot_2d
           Examples.with_centre [0; 0; 1] main_setup).
  repeat constructor; cbn; lia.
Defined.

Lemma frame_shows_every_stored_point_example :
  let st := snd (Examples.frames Examples.with_centre 3) in
  let r := update Oracle.Delaunay Oracle.Voronoi Oracle.voronoi_plot_2d
                  Examples.with_centre 3 st in
  (exists rest : list artist,
     artists (ax (snd r)) = markers (current_points st ++ [(0.5, 0.5)%float]) :: rest)
  /\ (title (ax (snd r))
      = step_title 3 (List.length (current_points st ++ [(0.5, 0.5)%float]))
      \/ exists e : exn, title (ax (snd r)) = failure_title 3 e).
Proof.
  intros st r.
  apply (frame_shows_every_stored_point
           Oracle.Delaunay Oracle.Vor Oracle.Voronoi Oracle.voronoi_plot_2d
           Examples.with_centre 3 st (0.5, 0.5)%float).
  - intros vor a a' raised H. injection H as <- _. cbn [title artists].
    split; [reflexivity | eexists; reflexivity].
  - reflexivity.
Defined.

Lemma successful_frame_layers_example :
  let st := snd (Examples.frames Examples.with_centre 3) in
  exists a' : Axes,
    update Oracle.Delaunay Oracle.Voronoi Oracle.voronoi_plot_2d
           Examples.with_centre 3 st
    = (inl [], mkState (current_points st ++ [(0.5, 0.5)%float]) a' (stdout st)).
Proof.
  intros st. eexists.
  eapply (successful_frame_layers
            Oracle.Delaunay Oracle.Vor Oracle.Voronoi Oracle.voronoi_plot_2d
            Examples.with_centre 3 st (0.5, 0.5)%float).
  - reflexivity.
  - vm_compute. lia.
  - vm_compute. reflexivity.
  - repeat constructor; vm_compute; lia.
  - vm_compute. reflexivity.
  - vm_compute. reflexivity.
Defined.
